(** * The exception abstract domain of IKOS

  Shallow embedding of [ikos/core/domain/exception/exception.hpp]:
  the class template [ExceptionDomain< UnderlyingDomain >], a triple
  (normal, caught_exceptions, propagated_exceptions) of abstract values
  of an underlying domain.

  The C++ methods mutate the receiver; here a mutating method is a
  function from the receiver before the call (and its arguments) to the
  receiver after the call, and its body is the sequence of the member
  updates of the C++ body, in the same order. *)

From Stdlib Require Import Bool String.

Set Implicit Arguments.

(** ** The underlying domain

  [UnderlyingDomain] is the template parameter of the class; the header
  that declares its interface is not among the sources, so the domain is
  a parameter here.  The methods that [exception.hpp] calls on it are
  the fields of the interface below.  A
  mutating method [void m(const V& other)] of the C++ interface is the
  function [m this other] giving the new value of the receiver. *)

Module UnderlyingDomain.

Class t (V : Type) : Type := {
  top : V;
  bottom : V;
  is_bottom : V -> bool;
  is_top : V -> bool;
  set_to_bottom : V -> V;
  set_to_top : V -> V;
  leq : V -> V -> bool;
  equals : V -> V -> bool;
  join_with : V -> V -> V;
  join_loop_with : V -> V -> V;
  join_iter_with : V -> V -> V;
  widen_with : V -> V -> V;
  meet_with : V -> V -> V;
  narrow_with : V -> V -> V;
  name : string
}.

(** The member template [widen_threshold_with< Threshold >]: an
    underlying domain that accepts thresholds of type [Threshold]. *)
Class threshold (V Threshold : Type) : Type := {
  widen_threshold_with : V -> V -> Threshold -> V
}.

End UnderlyingDomain.

(** ** The class [ExceptionDomain] *)

Module ExceptionDomain.

Section Domain.

Context {V : Type} {U : UnderlyingDomain.t V}.

(** The three private members. *)
Record t : Type := Build {
  _normal : V;
  _caught_exceptions : V;
  _propagated_exceptions : V
}.

(** Assignments to one member of the receiver. *)
Definition with_normal (f : V -> V) (this : t) : t :=
  Build (f (_normal this))
        (_caught_exceptions this)
        (_propagated_exceptions this).

Definition with_caught_exceptions (f : V -> V) (this : t) : t :=
  Build (_normal this)
        (f (_caught_exceptions this))
        (_propagated_exceptions this).

Definition with_propagated_exceptions (f : V -> V) (this : t) : t :=
  Build (_normal this)
        (_caught_exceptions this)
        (f (_propagated_exceptions this)).

(** [std::swap(this->_normal, this->_caught_exceptions)] *)
Definition swap_normal_caught_exceptions (this : t) : t :=
  Build (_caught_exceptions this)
        (_normal this)
        (_propagated_exceptions this).

(** *** Constructors *)

(** [ExceptionDomain(TopTag)] *)
Definition of_TopTag : t :=
  Build UnderlyingDomain.top UnderlyingDomain.top UnderlyingDomain.top.

(** [ExceptionDomain(TopNoExceptionsTag)] *)
Definition of_TopNoExceptionsTag : t :=
  Build UnderlyingDomain.top
        UnderlyingDomain.bottom
        UnderlyingDomain.bottom.

(** [ExceptionDomain(BottomTag)] *)
Definition of_BottomTag : t :=
  Build UnderlyingDomain.bottom
        UnderlyingDomain.bottom
        UnderlyingDomain.bottom.

(** [ExceptionDomain()], which delegates to [ExceptionDomain(TopTag{})]. *)
Definition default : t := of_TopTag.

(** [ExceptionDomain(normal, caught_exceptions, propagated_exceptions)] *)
Definition make (normal caught_exceptions propagated_exceptions : V) : t :=
  Build normal caught_exceptions propagated_exceptions.

Definition top : t := of_TopTag.

Definition top_no_exceptions : t := of_TopNoExceptionsTag.

Definition bottom : t := of_BottomTag.

(** *** Lattice operations *)

Definition is_bottom (this : t) : bool :=
  UnderlyingDomain.is_bottom (_normal this)
  && UnderlyingDomain.is_bottom (_caught_exceptions this)
  && UnderlyingDomain.is_bottom (_propagated_exceptions this).

Definition is_top (this : t) : bool :=
  UnderlyingDomain.is_top (_normal this)
  && UnderlyingDomain.is_top (_caught_exceptions this)
  && UnderlyingDomain.is_top (_propagated_exceptions this).

Definition set_to_bottom (this : t) : t :=
  let this := with_normal UnderlyingDomain.set_to_bottom this in
  let this := with_caught_exceptions UnderlyingDomain.set_to_bottom this in
  with_propagated_exceptions UnderlyingDomain.set_to_bottom this.

Definition set_to_top (this : t) : t :=
  let this := with_normal UnderlyingDomain.set_to_top this in
  let this := with_caught_exceptions UnderlyingDomain.set_to_top this in
  with_propagated_exceptions UnderlyingDomain.set_to_top this.

Definition leq (this other : t) : bool :=
  UnderlyingDomain.leq (_normal this) (_normal other)
  && UnderlyingDomain.leq (_caught_exceptions this)
                          (_caught_exceptions other)
  && UnderlyingDomain.leq (_propagated_exceptions this)
                          (_propagated_exceptions other).

Definition equals (this other : t) : bool :=
  UnderlyingDomain.equals (_normal this) (_normal other)
  && UnderlyingDomain.equals (_caught_exceptions this)
                             (_caught_exceptions other)
  && UnderlyingDomain.equals (_propagated_exceptions this)
                             (_propagated_exceptions other).

Definition join_with (this other : t) : t :=
  let this :=
    with_normal
      (fun v => UnderlyingDomain.join_with v (_normal other)) this in
  let this :=
    with_caught_exceptions
      (fun v => UnderlyingDomain.join_with v (_caught_exceptions other))
      this in
  with_propagated_exceptions
    (fun v => UnderlyingDomain.join_with v (_propagated_exceptions other))
    this.

Definition join_loop_with (this other : t) : t :=
  let this :=
    with_normal
      (fun v => UnderlyingDomain.join_loop_with v (_normal other)) this in
  let this :=
    with_caught_exceptions
      (fun v =>
         UnderlyingDomain.join_loop_with v (_caught_exceptions other))
      this in
  with_propagated_exceptions
    (fun v =>
       UnderlyingDomain.join_loop_with v (_propagated_exceptions other))
    this.

Definition join_iter_with (this other : t) : t :=
  let this :=
    with_normal
      (fun v => UnderlyingDomain.join_iter_with v (_normal other)) this in
  let this :=
    with_caught_exceptions
      (fun v =>
         UnderlyingDomain.join_iter_with v (_caught_exceptions other))
      this in
  with_propagated_exceptions
    (fun v =>
       UnderlyingDomain.join_iter_with v (_propagated_exceptions other))
    this.

Definition widen_with (this other : t) : t :=
  let this :=
    with_normal
      (fun v => UnderlyingDomain.widen_with v (_normal other)) this in
  let this :=
    with_caught_exceptions
      (fun v => UnderlyingDomain.widen_with v (_caught_exceptions other))
      this in
  with_propagated_exceptions
    (fun v => UnderlyingDomain.widen_with v (_propagated_exceptions other))
    this.

(** [template < typename Threshold > widen_threshold_with] *)
Definition widen_threshold_with {Threshold : Type}
    {W : UnderlyingDomain.threshold V Threshold}
    (this other : t) (threshold : Threshold) : t :=
  let this :=
    with_normal
      (fun v =>
         UnderlyingDomain.widen_threshold_with v (_normal other) threshold)
      this in
  let this :=
    with_caught_exceptions
      (fun v =>
         UnderlyingDomain.widen_threshold_with
           v (_caught_exceptions other) threshold)
      this in
  with_propagated_exceptions
    (fun v =>
       UnderlyingDomain.widen_threshold_with
         v (_propagated_exceptions other) threshold)
    this.

Definition meet_with (this other : t) : t :=
  let this :=
    with_normal
      (fun v => UnderlyingDomain.meet_with v (_normal other)) this in
  let this :=
    with_caught_exceptions
      (fun v => UnderlyingDomain.meet_with v (_caught_exceptions other))
      this in
  with_propagated_exceptions
    (fun v => UnderlyingDomain.meet_with v (_propagated_exceptions other))
    this.

Definition narrow_with (this other : t) : t :=
  let this :=
    with_normal
      (fun v => UnderlyingDomain.narrow_with v (_normal other)) this in
  let this :=
    with_caught_exceptions
      (fun v => UnderlyingDomain.narrow_with v (_caught_exceptions other))
      this in
  with_propagated_exceptions
    (fun v =>
       UnderlyingDomain.narrow_with v (_propagated_exceptions other))
    this.

(** *** Implementation of [exception::AbstractDomain] *)

(** The reference-returning accessors, read. *)
Definition normal (this : t) : V := _normal this.

Definition caught_exceptions (this : t) : V := _caught_exceptions this.

(** The const overload of [propagated_exceptions]. *)
Definition propagated_exceptions_const (this : t) : V :=
  _propagated_exceptions this.

(** The non-const overload of [propagated_exceptions], which returns
    by value: the returned copy and the receiver after the call. *)
Definition propagated_exceptions (this : t) : V * t :=
  (_propagated_exceptions this, this).

Definition is_normal_flow_bottom (this : t) : bool :=
  UnderlyingDomain.is_bottom (_normal this).

Definition is_normal_flow_top (this : t) : bool :=
  UnderlyingDomain.is_top (_normal this).

Definition set_normal_flow_to_bottom (this : t) : t :=
  with_normal UnderlyingDomain.set_to_bottom this.

Definition set_normal_flow_to_top (this : t) : t :=
  with_normal UnderlyingDomain.set_to_top this.

Definition is_caught_exceptions_bottom (this : t) : bool :=
  UnderlyingDomain.is_bottom (_caught_exceptions this).

Definition is_caught_exceptions_top (this : t) : bool :=
  UnderlyingDomain.is_top (_caught_exceptions this).

Definition set_caught_exceptions_to_bottom (this : t) : t :=
  with_caught_exceptions UnderlyingDomain.set_to_bottom this.

Definition set_caught_exceptions_to_top (this : t) : t :=
  with_caught_exceptions UnderlyingDomain.set_to_top this.

Definition is_propagated_exceptions_bottom (this : t) : bool :=
  UnderlyingDomain.is_bottom (_propagated_exceptions this).

Definition is_propagated_exceptions_top (this : t) : bool :=
  UnderlyingDomain.is_top (_propagated_exceptions this).

Definition set_propagated_exceptions_to_bottom (this : t) : t :=
  with_propagated_exceptions UnderlyingDomain.set_to_bottom this.

Definition set_propagated_exceptions_to_top (this : t) : t :=
  with_propagated_exceptions UnderlyingDomain.set_to_top this.

(** *** Exception transfer functions *)

Definition merge_propagated_in_caught_exceptions (this : t) : t :=
  let this :=
    with_caught_exceptions
      (fun v => UnderlyingDomain.join_with v (_propagated_exceptions this))
      this in
  with_propagated_exceptions UnderlyingDomain.set_to_bottom this.

Definition merge_caught_in_propagated_exceptions (this : t) : t :=
  let this :=
    with_propagated_exceptions
      (fun v => UnderlyingDomain.join_with v (_caught_exceptions this))
      this in
  with_caught_exceptions UnderlyingDomain.set_to_bottom this.

Definition enter_normal (this : t) : t :=
  with_caught_exceptions UnderlyingDomain.set_to_bottom this.

Definition enter_catch (this : t) : t :=
  let this := swap_normal_caught_exceptions this in
  let this := with_caught_exceptions UnderlyingDomain.set_to_bottom this in
  with_propagated_exceptions UnderlyingDomain.set_to_bottom this.

Definition ignore_exceptions (this : t) : t :=
  let this := with_caught_exceptions UnderlyingDomain.set_to_bottom this in
  with_propagated_exceptions UnderlyingDomain.set_to_bottom this.

Definition throw_exception (this : t) : t :=
  let this :=
    with_caught_exceptions
      (fun v => UnderlyingDomain.join_with v (_normal this)) this in
  with_normal UnderlyingDomain.set_to_bottom this.

Definition resume_exception (this : t) : t :=
  let this :=
    with_caught_exceptions
      (fun v => UnderlyingDomain.join_with v (_normal this)) this in
  with_normal UnderlyingDomain.set_to_bottom this.

Definition name : string :=
  ("exception domain of " ++ UnderlyingDomain.name)%string.

End Domain.

Arguments t V : clear implicits.

End ExceptionDomain.

Module UD := UnderlyingDomain.
Module ED := ExceptionDomain.

(** ** A concrete underlying domain *)

Module Parity.

(** Modelled from the spec: the source has no concrete underlying domain
    (the class is a template over it); this is the four-element lattice
    of the spec's testable properties, with [Bottom] below [Even] and
    [Odd], both below [Top], and [Even] and [Odd] incomparable.  It is
    used to run the operations on concrete values. *)
Inductive t : Type := Bottom | Even | Odd | Top.

Definition is_bottom (v : t) : bool :=
  match v with Bottom => true | _ => false end.

Definition is_top (v : t) : bool :=
  match v with Top => true | _ => false end.

Definition equals (v w : t) : bool :=
  match v, w with
  | Bottom, Bottom | Even, Even | Odd, Odd | Top, Top => true
  | _, _ => false
  end.

Definition leq (v w : t) : bool :=
  match v, w with
  | Bottom, _ | _, Top => true
  | Even, Even | Odd, Odd => true
  | _, _ => false
  end.

Definition join (v w : t) : t :=
  match v, w with
  | Bottom, x | x, Bottom => x
  | Even, Even => Even
  | Odd, Odd => Odd
  | _, _ => Top
  end.

Definition meet (v w : t) : t :=
  match v, w with
  | Top, x | x, Top => x
  | Even, Even => Even
  | Odd, Odd => Odd
  | _, _ => Bottom
  end.

#[global] Instance domain : UnderlyingDomain.t t := {|
  UnderlyingDomain.top := Top;
  UnderlyingDomain.bottom := Bottom;
  UnderlyingDomain.is_bottom := is_bottom;
  UnderlyingDomain.is_top := is_top;
  UnderlyingDomain.set_to_bottom := fun _ => Bottom;
  UnderlyingDomain.set_to_top := fun _ => Top;
  UnderlyingDomain.leq := leq;
  UnderlyingDomain.equals := equals;
  UnderlyingDomain.join_with := join;
  UnderlyingDomain.join_loop_with := join;
  UnderlyingDomain.join_iter_with := join;
  UnderlyingDomain.widen_with := join;
  UnderlyingDomain.meet_with := meet;
  UnderlyingDomain.narrow_with := meet;
  UnderlyingDomain.name := "parity"
|}.

(** Widening with a threshold that is itself a parity: the join when the
    threshold does not bound it, the threshold otherwise. *)
#[global] Instance threshold : UnderlyingDomain.threshold t t := {|
  UnderlyingDomain.widen_threshold_with := fun v w th =>
    if leq (join v w) th then th else join v w
|}.

End Parity.

(** ** The words of the specification *)

(** "Componentwise": the operation [op] of the underlying domain applied
    slot by slot to two triples. *)
Definition componentwise {V : Type} (op : V -> V -> V)
    (x y : ExceptionDomain.t V) : ExceptionDomain.t V :=
  ExceptionDomain.Build
    (op (ExceptionDomain._normal x) (ExceptionDomain._normal y))
    (op (ExceptionDomain._caught_exceptions x)
        (ExceptionDomain._caught_exceptions y))
    (op (ExceptionDomain._propagated_exceptions x)
        (ExceptionDomain._propagated_exceptions y)).

(** A relation holds slot by slot between two triples. *)
Definition slotwise {V : Type} (R : V -> V -> Prop)
    (x y : ExceptionDomain.t V) : Prop :=
  R (ExceptionDomain._normal x) (ExceptionDomain._normal y)
  /\ R (ExceptionDomain._caught_exceptions x)
       (ExceptionDomain._caught_exceptions y)
  /\ R (ExceptionDomain._propagated_exceptions x)
       (ExceptionDomain._propagated_exceptions y).

(** ** The contract of the underlying domain

    What the words "bottom", "top" and "join" stand for in the
    properties below, as statements on the methods of an underlying
    domain.  The source calls the methods and relies on their contract;
    none of it is checked by the class. *)

Module Contract.

Section Contract.

Context {V : Type} (U : UnderlyingDomain.t V).

(** After [set_to_bottom] a value answers true to [is_bottom]. *)
Definition set_to_bottom_is_bottom : Prop :=
  forall v : V, UD.is_bottom (UD.set_to_bottom v) = true.

(** Join with bottom is the identity: a bottom receiver takes the value of
    the argument. *)
Definition join_with_bottom_receiver : Prop :=
  forall v w : V, UD.is_bottom v = true -> UD.join_with v w = w.

(** Every value is below top. *)
Definition top_is_greatest : Prop :=
  forall v : V, UD.leq v UD.top = true.

(** Top is distinct from bottom, for [is_top] and for [equals]. *)
Definition bottom_is_not_top : Prop :=
  UD.is_top (UD.bottom : V) = false.

Definition bottom_not_equals_top : Prop :=
  UD.equals (UD.bottom : V) UD.top = false.

End Contract.

End Contract.

(** ** The class as an abstract domain

    [ExceptionDomain] derives from the abstract-domain interface and
    overrides its methods, so an [ExceptionDomain< V >] can itself be the
    [UnderlyingDomain] of another [ExceptionDomain].  The methods of the
    class, packed as an instance of the interface. *)

Definition as_underlying_domain {V : Type} (U : UnderlyingDomain.t V)
    : UnderlyingDomain.t (ExceptionDomain.t V) := {|
  UnderlyingDomain.top := ExceptionDomain.top;
  UnderlyingDomain.bottom := ExceptionDomain.bottom;
  UnderlyingDomain.is_bottom := ExceptionDomain.is_bottom;
  UnderlyingDomain.is_top := ExceptionDomain.is_top;
  UnderlyingDomain.set_to_bottom := ExceptionDomain.set_to_bottom;
  UnderlyingDomain.set_to_top := ExceptionDomain.set_to_top;
  UnderlyingDomain.leq := ExceptionDomain.leq;
  UnderlyingDomain.equals := ExceptionDomain.equals;
  UnderlyingDomain.join_with := ExceptionDomain.join_with;
  UnderlyingDomain.join_loop_with := ExceptionDomain.join_loop_with;
  UnderlyingDomain.join_iter_with := ExceptionDomain.join_iter_with;
  UnderlyingDomain.widen_with := ExceptionDomain.widen_with;
  UnderlyingDomain.meet_with := ExceptionDomain.meet_with;
  UnderlyingDomain.narrow_with := ExceptionDomain.narrow_with;
  UnderlyingDomain.name := ExceptionDomain.name
|}.

(** ** [dump]

    The output stream is the text written to it so far, and [o << s]
    appends [s].  [dump] of the underlying domain takes the stream and
    gives the stream after its output. *)

Module Dump.

Module Underlying.

Class t (V : Type) : Type := {
  dump : V -> string -> string
}.

End Underlying.

Definition put (o s : string) : string := (o ++ s)%string.

(** [ExceptionDomain::dump] *)
Definition dump {V : Type} {D : Underlying.t V}
    (this : ExceptionDomain.t V) (o : string) : string :=
  let o := put o "(normal=" in
  let o := Underlying.dump (ExceptionDomain._normal this) o in
  let o := put o ", caught_exceptions=" in
  let o := Underlying.dump (ExceptionDomain._caught_exceptions this) o in
  let o := put o ", propagated_exceptions=" in
  let o :=
    Underlying.dump (ExceptionDomain._propagated_exceptions this) o in
  put o ")".

(** An underlying [dump] only appends: its output is the text before it
    followed by a rendering of the value. *)
Definition appends {V : Type} (D : Underlying.t V)
    (render : V -> string) : Prop :=
  forall (v : V) (o : string),
    Underlying.dump v o = (o ++ render v)%string.

End Dump.

(** Modelled from the spec: a [dump] for the parity lattice of the spec's
    tests, which writes the name of the element. *)
Definition parity_render (v : Parity.t) : string :=
  match v with
  | Parity.Bottom => "Bottom"
  | Parity.Even => "Even"
  | Parity.Odd => "Odd"
  | Parity.Top => "Top"
  end.

#[global] Instance parity_dump : Dump.Underlying.t Parity.t := {|
  Dump.Underlying.dump := fun v o => (o ++ parity_render v)%string
|}.

(** ** Lattice laws of an underlying domain

    The laws that an abstract domain is expected to satisfy, as
    statements on the methods of an instance of the interface.  They are
    hypotheses on the underlying domain and conclusions on the class. *)

Module Laws.

Section Laws.

Context {V : Type} (U : UnderlyingDomain.t V).

Definition leq_reflexive : Prop :=
  forall v : V, UD.leq v v = true.

Definition leq_transitive : Prop :=
  forall u v w : V,
    UD.leq u v = true -> UD.leq v w = true -> UD.leq u w = true.

Definition leq_antisymmetric : Prop :=
  forall v w : V,
    UD.leq v w = true -> UD.leq w v = true -> UD.equals v w = true.

Definition equals_reflexive : Prop :=
  forall v : V, UD.equals v v = true.

Definition equals_symmetric : Prop :=
  forall v w : V, UD.equals v w = true -> UD.equals w v = true.

Definition equals_transitive : Prop :=
  forall u v w : V,
    UD.equals u v = true -> UD.equals v w = true -> UD.equals u w = true.

Definition bottom_is_bottom : Prop :=
  UD.is_bottom (UD.bottom : V) = true.

Definition top_is_top : Prop :=
  UD.is_top (UD.top : V) = true.

Definition bottom_is_least : Prop :=
  forall v : V, UD.leq UD.bottom v = true.

Definition set_to_top_is_top : Prop :=
  forall v : V, UD.is_top (UD.set_to_top v) = true.

(** [op] gives an upper bound of the receiver and of the argument. *)
Definition upper_bound (op : V -> V -> V) : Prop :=
  forall v w : V, UD.leq v (op v w) = true /\ UD.leq w (op v w) = true.

(** [op] gives a value below every upper bound. *)
Definition least (op : V -> V -> V) : Prop :=
  forall v w z : V,
    UD.leq v z = true -> UD.leq w z = true -> UD.leq (op v w) z = true.

(** [op] gives a lower bound of the receiver and of the argument. *)
Definition lower_bound (op : V -> V -> V) : Prop :=
  forall v w : V, UD.leq (op v w) v = true /\ UD.leq (op v w) w = true.

(** [op] gives a value above every lower bound. *)
Definition greatest (op : V -> V -> V) : Prop :=
  forall v w z : V,
    UD.leq z v = true -> UD.leq z w = true -> UD.leq z (op v w) = true.

Definition monotone (op : V -> V -> V) : Prop :=
  forall v v' w w' : V,
    UD.leq v v' = true -> UD.leq w w' = true ->
    UD.leq (op v w) (op v' w') = true.

(** Join with a bottom argument leaves the receiver as it is. *)
Definition join_with_bottom_argument : Prop :=
  forall v w : V, UD.is_bottom w = true -> UD.join_with v w = v.

(** Meet of a top receiver takes the value of the argument. *)
Definition meet_with_top_receiver : Prop :=
  forall v w : V, UD.is_top v = true -> UD.meet_with v w = w.

Definition set_to_bottom_idempotent : Prop :=
  forall v : V,
    UD.set_to_bottom (UD.set_to_bottom v) = UD.set_to_bottom v.

(** [set_to_bottom] gives a value below every value. *)
Definition set_to_bottom_is_least : Prop :=
  forall v w : V, UD.leq (UD.set_to_bottom v) w = true.

(** No value is both bottom and top. *)
Definition bottom_excludes_top : Prop :=
  forall v : V, UD.is_bottom v = true -> UD.is_top v = false.

End Laws.

End Laws.

(** * Properties *)

(** ** The lattice operations, slot by slot *)

Section LatticeOperations.

Context {V : Type} {U : UnderlyingDomain.t V}.

Implicit Types x y d : ED.t V.

Lemma andb3_true_iff (a b c : bool) :
  a && b && c = true <-> a = true /\ b = true /\ c = true.
Proof.
  rewrite !andb_true_iff. tauto.
Qed.

Lemma leq_true_iff x y :
  ED.leq x y = true <-> slotwise (fun v w => UD.leq v w = true) x y.
Proof.
  unfold ED.leq, slotwise. apply andb3_true_iff.
Qed.

Lemma equals_true_iff x y :
  ED.equals x y = true
  <-> slotwise (fun v w => UD.equals v w = true) x y.
Proof.
  unfold ED.equals, slotwise. apply andb3_true_iff.
Qed.

(** The three member updates of a binary in-place operation, run in the
    order of the source, give the componentwise triple: no update reads a
    member that an earlier one wrote. *)
Lemma member_updates_componentwise (op : V -> V -> V) x y :
  ED.with_propagated_exceptions
    (fun v => op v (ED._propagated_exceptions y))
    (ED.with_caught_exceptions
       (fun v => op v (ED._caught_exceptions y))
       (ED.with_normal (fun v => op v (ED._normal y)) x))
  = componentwise op x y.
Proof.
  destruct x as [n c p]. reflexivity.
Qed.

(** C1: the order and the equality test are the conjunction of the
    underlying tests on the normal, caught and propagated slots, and
    [join_with], [join_loop_with], [join_iter_with], [widen_with],
    [meet_with] and [narrow_with] apply the operation of the same name of
    the underlying domain to each of the three slots;
    [widen_threshold_with] passes the one threshold it receives,
    unchanged, to the three slots. *)
Theorem lattice_operations_componentwise
    (Threshold : Type) (W : UD.threshold V Threshold)
    x y (threshold : Threshold) :
  (ED.leq x y = true
   <-> UD.leq (ED._normal x) (ED._normal y) = true
       /\ UD.leq (ED._caught_exceptions x) (ED._caught_exceptions y) = true
       /\ UD.leq (ED._propagated_exceptions x)
                 (ED._propagated_exceptions y) = true)
  /\ (ED.equals x y = true
      <-> UD.equals (ED._normal x) (ED._normal y) = true
          /\ UD.equals (ED._caught_exceptions x)
                       (ED._caught_exceptions y) = true
          /\ UD.equals (ED._propagated_exceptions x)
                       (ED._propagated_exceptions y) = true)
  /\ ED.join_with x y = componentwise UD.join_with x y
  /\ ED.join_loop_with x y = componentwise UD.join_loop_with x y
  /\ ED.join_iter_with x y = componentwise UD.join_iter_with x y
  /\ ED.widen_with x y = componentwise UD.widen_with x y
  /\ ED.meet_with x y = componentwise UD.meet_with x y
  /\ ED.narrow_with x y = componentwise UD.narrow_with x y
  /\ ED.widen_threshold_with x y threshold
     = componentwise
         (fun v w => UD.widen_threshold_with v w threshold) x y.
Proof.
  split; [exact (leq_true_iff x y) |].
  split; [exact (equals_true_iff x y) |].
  repeat split; apply member_updates_componentwise.
Qed.

(** C2: [is_bottom] answers true exactly when the three slots are bottom,
    and [is_top] exactly when the three slots are top. *)
Theorem is_bottom_is_top_all_components d :
  (ED.is_bottom d = true
   <-> UD.is_bottom (ED._normal d) = true
       /\ UD.is_bottom (ED._caught_exceptions d) = true
       /\ UD.is_bottom (ED._propagated_exceptions d) = true)
  /\ (ED.is_top d = true
      <-> UD.is_top (ED._normal d) = true
          /\ UD.is_top (ED._caught_exceptions d) = true
          /\ UD.is_top (ED._propagated_exceptions d) = true).
Proof.
  unfold ED.is_bottom, ED.is_top.
  split; apply andb3_true_iff.
Qed.

(** A false answer of [is_bottom] names a slot that is not bottom. *)
Lemma is_bottom_false_iff d :
  ED.is_bottom d = false
  <-> UD.is_bottom (ED._normal d) = false
      \/ UD.is_bottom (ED._caught_exceptions d) = false
      \/ UD.is_bottom (ED._propagated_exceptions d) = false.
Proof.
  unfold ED.is_bottom. rewrite !andb_false_iff. tauto.
Qed.

Lemma is_top_false_iff d :
  ED.is_top d = false
  <-> UD.is_top (ED._normal d) = false
      \/ UD.is_top (ED._caught_exceptions d) = false
      \/ UD.is_top (ED._propagated_exceptions d) = false.
Proof.
  unfold ED.is_top. rewrite !andb_false_iff. tauto.
Qed.

End LatticeOperations.

(** ** The exception transfer functions *)

Section TransferFunctions.

Context {V : Type} {U : UnderlyingDomain.t V}.

Implicit Types d : ED.t V.

(** What each transfer function leaves in the three members, read off the
    sequence of its member updates. *)

Lemma enter_normal_members d :
  ED.enter_normal d
  = ED.Build (ED._normal d)
             (UD.set_to_bottom (ED._caught_exceptions d))
             (ED._propagated_exceptions d).
Proof. reflexivity. Qed.

Lemma enter_catch_members d :
  ED.enter_catch d
  = ED.Build (ED._caught_exceptions d)
             (UD.set_to_bottom (ED._normal d))
             (UD.set_to_bottom (ED._propagated_exceptions d)).
Proof. reflexivity. Qed.

Lemma ignore_exceptions_members d :
  ED.ignore_exceptions d
  = ED.Build (ED._normal d)
             (UD.set_to_bottom (ED._caught_exceptions d))
             (UD.set_to_bottom (ED._propagated_exceptions d)).
Proof. reflexivity. Qed.

Lemma throw_exception_members d :
  ED.throw_exception d
  = ED.Build (UD.set_to_bottom (ED._normal d))
             (UD.join_with (ED._caught_exceptions d) (ED._normal d))
             (ED._propagated_exceptions d).
Proof. reflexivity. Qed.

Lemma resume_exception_members d :
  ED.resume_exception d
  = ED.Build (UD.set_to_bottom (ED._normal d))
             (UD.join_with (ED._caught_exceptions d) (ED._normal d))
             (ED._propagated_exceptions d).
Proof. reflexivity. Qed.

Lemma merge_propagated_in_caught_exceptions_members d :
  ED.merge_propagated_in_caught_exceptions d
  = ED.Build (ED._normal d)
             (UD.join_with (ED._caught_exceptions d)
                           (ED._propagated_exceptions d))
             (UD.set_to_bottom (ED._propagated_exceptions d)).
Proof. reflexivity. Qed.

Lemma merge_caught_in_propagated_exceptions_members d :
  ED.merge_caught_in_propagated_exceptions d
  = ED.Build (ED._normal d)
             (UD.set_to_bottom (ED._caught_exceptions d))
             (UD.join_with (ED._propagated_exceptions d)
                           (ED._caught_exceptions d)).
Proof. reflexivity. Qed.

(** C5: [resume_exception] and [throw_exception] are the same
    transformation: on the same value they give the same value. *)
Theorem resume_exception_is_throw_exception d :
  ED.resume_exception d = ED.throw_exception d.
Proof.
  rewrite resume_exception_members, throw_exception_members.
  reflexivity.
Qed.

Lemma throw_exception_generic d :
  (ED._caught_exceptions (ED.throw_exception d)
   = UD.join_with (ED._caught_exceptions d) (ED._normal d)
   /\ ED._normal (ED.throw_exception d) = UD.set_to_bottom (ED._normal d)
   /\ ED._propagated_exceptions (ED.throw_exception d)
      = ED._propagated_exceptions d)
  /\ (Contract.set_to_bottom_is_bottom U ->
      ED.is_normal_flow_bottom (ED.throw_exception d) = true).
Proof.
  rewrite throw_exception_members. cbn.
  split; [repeat split | intros Hbot; apply Hbot].
Qed.

Lemma enter_catch_generic d :
  (ED._normal (ED.enter_catch d) = ED._caught_exceptions d
   /\ ED._caught_exceptions (ED.enter_catch d)
      = UD.set_to_bottom (ED._normal d)
   /\ ED._propagated_exceptions (ED.enter_catch d)
      = UD.set_to_bottom (ED._propagated_exceptions d))
  /\ (Contract.set_to_bottom_is_bottom U ->
      ED.is_caught_exceptions_bottom (ED.enter_catch d) = true
      /\ ED.is_propagated_exceptions_bottom (ED.enter_catch d) = true).
Proof.
  rewrite enter_catch_members.
  unfold ED.is_caught_exceptions_bottom, ED.is_propagated_exceptions_bottom.
  cbn. split; [repeat split | intros Hbot; split; apply Hbot].
Qed.

(** C8: the transfer functions leave alone the slots that their effect
    does not name.  [enter_normal] sets the caught slot to bottom and keeps
    the normal and propagated slots; [ignore_exceptions] sets the caught
    and propagated slots to bottom and keeps the normal slot;
    [throw_exception] and [resume_exception] keep the propagated slot;
    the two merge functions keep the normal slot. *)
Theorem transfer_functions_frame d :
  (ED._normal (ED.enter_normal d) = ED._normal d
   /\ ED._propagated_exceptions (ED.enter_normal d)
      = ED._propagated_exceptions d
   /\ ED._caught_exceptions (ED.enter_normal d)
      = UD.set_to_bottom (ED._caught_exceptions d))
  /\ (ED._normal (ED.ignore_exceptions d) = ED._normal d
      /\ ED._caught_exceptions (ED.ignore_exceptions d)
         = UD.set_to_bottom (ED._caught_exceptions d)
      /\ ED._propagated_exceptions (ED.ignore_exceptions d)
         = UD.set_to_bottom (ED._propagated_exceptions d))
  /\ ED._propagated_exceptions (ED.throw_exception d)
     = ED._propagated_exceptions d
  /\ ED._propagated_exceptions (ED.resume_exception d)
     = ED._propagated_exceptions d
  /\ ED._normal (ED.merge_propagated_in_caught_exceptions d) = ED._normal d
  /\ ED._normal (ED.merge_caught_in_propagated_exceptions d) = ED._normal d
  /\ (Contract.set_to_bottom_is_bottom U ->
      ED.is_caught_exceptions_bottom (ED.enter_normal d) = true
      /\ ED.is_caught_exceptions_bottom (ED.ignore_exceptions d) = true
      /\ ED.is_propagated_exceptions_bottom (ED.ignore_exceptions d) = true).
Proof.
  destruct d as [n c p].
  unfold ED.is_caught_exceptions_bottom, ED.is_propagated_exceptions_bottom.
  cbn. intuition.
Qed.

(** C7: with nothing propagated, moving the caught exceptions to the
    propagated slot and then back restores the caught slot and leaves the
    propagated slot bottom, when a join with a bottom receiver gives the
    argument. *)
Theorem merge_round_trip d :
  Contract.set_to_bottom_is_bottom U ->
  Contract.join_with_bottom_receiver U ->
  ED.is_propagated_exceptions_bottom d = true ->
  ED._caught_exceptions
    (ED.merge_propagated_in_caught_exceptions
       (ED.merge_caught_in_propagated_exceptions d))
  = ED._caught_exceptions d
  /\ ED.is_propagated_exceptions_bottom
       (ED.merge_propagated_in_caught_exceptions
          (ED.merge_caught_in_propagated_exceptions d))
     = true.
Proof.
  intros Hbot Hjoin Hp.
  rewrite merge_propagated_in_caught_exceptions_members.
  rewrite merge_caught_in_propagated_exceptions_members.
  unfold ED.is_propagated_exceptions_bottom in *. cbn. split.
  - rewrite (Hjoin _ _ Hp). apply Hjoin, Hbot.
  - apply Hbot.
Qed.

End TransferFunctions.

(** The two merges are not inverse of each other in general: with
    something already propagated, the round trip leaves the join in the
    caught slot. *)
Example merge_round_trip_needs_bottom :
  ED.merge_propagated_in_caught_exceptions
    (ED.merge_caught_in_propagated_exceptions
       (ED.make Parity.Top Parity.Even Parity.Odd))
  = ED.make Parity.Top Parity.Top Parity.Bottom.
Proof. reflexivity. Qed.

(** C3: [throw_exception] puts in the caught slot the join of the old
    caught slot with the old normal slot, sets the normal slot to bottom
    and keeps the propagated slot.  On the parity lattice, from normal
    [Even] and caught [Bottom], the normal slot is bottom and the caught
    slot is [Even] afterwards. *)
Theorem throw_exception_effect :
  (forall (V : Type) (U : UD.t V) (d : ED.t V),
     (ED._caught_exceptions (ED.throw_exception d)
      = UD.join_with (ED._caught_exceptions d) (ED._normal d)
      /\ ED._normal (ED.throw_exception d) = UD.set_to_bottom (ED._normal d)
      /\ ED._propagated_exceptions (ED.throw_exception d)
         = ED._propagated_exceptions d)
     /\ (Contract.set_to_bottom_is_bottom U ->
         ED.is_normal_flow_bottom (ED.throw_exception d) = true))
  /\ (forall p : Parity.t,
        ED.is_normal_flow_bottom
          (ED.throw_exception (ED.make Parity.Even Parity.Bottom p)) = true
        /\ ED.caught_exceptions
             (ED.throw_exception (ED.make Parity.Even Parity.Bottom p))
           = Parity.Even).
Proof.
  split.
  - intros V U d. apply throw_exception_generic.
  - intros p. split; reflexivity.
Qed.

(** C4: [enter_catch] makes the old caught slot the new normal slot,
    dropping the old normal slot, and sets the caught and propagated
    slots to bottom.  On the parity lattice, from normal [Odd] and caught
    [Even], the normal slot is [Even] and the caught and propagated slots
    are bottom afterwards. *)
Theorem enter_catch_effect :
  (forall (V : Type) (U : UD.t V) (d : ED.t V),
     (ED._normal (ED.enter_catch d) = ED._caught_exceptions d
      /\ ED._caught_exceptions (ED.enter_catch d)
         = UD.set_to_bottom (ED._normal d)
      /\ ED._propagated_exceptions (ED.enter_catch d)
         = UD.set_to_bottom (ED._propagated_exceptions d))
     /\ (Contract.set_to_bottom_is_bottom U ->
         ED.is_caught_exceptions_bottom (ED.enter_catch d) = true
         /\ ED.is_propagated_exceptions_bottom (ED.enter_catch d) = true))
  /\ (forall p : Parity.t,
        ED.normal (ED.enter_catch (ED.make Parity.Odd Parity.Even p))
        = Parity.Even
        /\ ED.is_caught_exceptions_bottom
             (ED.enter_catch (ED.make Parity.Odd Parity.Even p)) = true
        /\ ED.is_propagated_exceptions_bottom
             (ED.enter_catch (ED.make Parity.Odd Parity.Even p)) = true).
Proof.
  split.
  - intros V U d. apply enter_catch_generic.
  - intros p. repeat split.
Qed.

(** ** The distinguished values *)

Section DistinguishedValues.

Context {V : Type} {U : UnderlyingDomain.t V}.

(** C6: [top_no_exceptions] has the top of the underlying domain in the
    normal slot and its bottom in the caught and propagated slots.  When
    that top is distinct from that bottom it is not [is_top] and not
    equal to [top], and it is below [top]. *)
Theorem top_no_exceptions_strictly_below_top :
  (ED._normal (ED.top_no_exceptions : ED.t V) = UD.top
   /\ ED._caught_exceptions (ED.top_no_exceptions : ED.t V) = UD.bottom
   /\ ED._propagated_exceptions (ED.top_no_exceptions : ED.t V) = UD.bottom)
  /\ (Contract.bottom_is_not_top U ->
      ED.is_top (ED.top_no_exceptions : ED.t V) = false)
  /\ (Contract.top_is_greatest U ->
      ED.leq (ED.top_no_exceptions : ED.t V) ED.top = true)
  /\ (Contract.bottom_not_equals_top U ->
      ED.equals (ED.top_no_exceptions : ED.t V) ED.top = false).
Proof.
  split; [repeat split |].
  split; [| split].
  - intros Hnot_top.
    apply is_top_false_iff. right. left. exact Hnot_top.
  - intros Hgreatest.
    apply leq_true_iff. repeat split; apply Hgreatest.
  - intros Hnot_equals. unfold ED.equals. cbn.
    rewrite Hnot_equals. apply andb_false_r.
Qed.

(** C9: the default constructor builds the value of [top], whose three
    slots are the top of the underlying domain; when that top is not the
    bottom, this is not the value of [top_no_exceptions]. *)
Theorem default_constructor_is_top :
  (ED.default : ED.t V) = ED.top
  /\ (ED.default : ED.t V) = ED.Build UD.top UD.top UD.top
  /\ ((UD.top : V) <> UD.bottom ->
      (ED.default : ED.t V) <> ED.top_no_exceptions).
Proof.
  split; [reflexivity |]. split; [reflexivity |].
  intros Hdistinct Heq. apply Hdistinct.
  exact (f_equal ED._caught_exceptions Heq).
Qed.

(** C10: the by-value [propagated_exceptions] returns the propagated
    slot and leaves the three slots of the receiver as they were. *)
Theorem propagated_exceptions_does_not_consume (d : ED.t V) :
  fst (ED.propagated_exceptions d) = ED._propagated_exceptions d
  /\ fst (ED.propagated_exceptions d) = ED.propagated_exceptions_const d
  /\ snd (ED.propagated_exceptions d) = d
  /\ ED._normal (snd (ED.propagated_exceptions d)) = ED._normal d
  /\ ED._caught_exceptions (snd (ED.propagated_exceptions d))
     = ED._caught_exceptions d
  /\ ED._propagated_exceptions (snd (ED.propagated_exceptions d))
     = ED._propagated_exceptions d.
Proof.
  unfold ED.propagated_exceptions, ED.propagated_exceptions_const.
  cbn [fst snd]. repeat split.
Qed.

End DistinguishedValues.

(** ** The operations on the parity lattice *)

(** The parity lattice meets the contract. *)

Lemma parity_set_to_bottom_is_bottom :
  Contract.set_to_bottom_is_bottom Parity.domain.
Proof. intros v. reflexivity. Qed.

Lemma parity_join_with_bottom_receiver :
  Contract.join_with_bottom_receiver Parity.domain.
Proof.
  intros v w. destruct v; cbn; intros Hv; try discriminate Hv.
  now destruct w.
Qed.

Lemma parity_top_is_greatest : Contract.top_is_greatest Parity.domain.
Proof. intros v. now destruct v. Qed.

Lemma parity_bottom_is_not_top : Contract.bottom_is_not_top Parity.domain.
Proof. reflexivity. Qed.

Lemma parity_bottom_not_equals_top :
  Contract.bottom_not_equals_top Parity.domain.
Proof. reflexivity. Qed.

Lemma parity_top_not_bottom : (UD.top : Parity.t) <> UD.bottom.
Proof. discriminate. Qed.

Example parity_widen_threshold_with :
  ED.widen_threshold_with
    (ED.make Parity.Even Parity.Bottom Parity.Odd)
    (ED.make Parity.Even Parity.Odd Parity.Even)
    Parity.Even
  = ED.make Parity.Even Parity.Odd Parity.Top.
Proof. reflexivity. Qed.

Lemma throw_exception_effect_witness :
  Contract.set_to_bottom_is_bottom Parity.domain
  /\ ED.is_normal_flow_bottom
       (ED.throw_exception (ED.make Parity.Odd Parity.Even Parity.Top))
     = true.
Proof.
  split; [exact parity_set_to_bottom_is_bottom |].
  exact (proj2 (proj1 throw_exception_effect Parity.t Parity.domain
                  (ED.make Parity.Odd Parity.Even Parity.Top))
           parity_set_to_bottom_is_bottom).
Defined.

Lemma enter_catch_effect_witness :
  Contract.set_to_bottom_is_bottom Parity.domain
  /\ ED.is_caught_exceptions_bottom
       (ED.enter_catch (ED.make Parity.Odd Parity.Even Parity.Top)) = true
  /\ ED.is_propagated_exceptions_bottom
       (ED.enter_catch (ED.make Parity.Odd Parity.Even Parity.Top)) = true.
Proof.
  split; [exact parity_set_to_bottom_is_bottom |].
  exact (proj2 (proj1 enter_catch_effect Parity.t Parity.domain
                  (ED.make Parity.Odd Parity.Even Parity.Top))
           parity_set_to_bottom_is_bottom).
Defined.

Lemma transfer_functions_frame_witness :
  Contract.set_to_bottom_is_bottom Parity.domain
  /\ ED.is_caught_exceptions_bottom
       (ED.enter_normal (ED.make Parity.Odd Parity.Even Parity.Top)) = true
  /\ ED.is_caught_exceptions_bottom
       (ED.ignore_exceptions (ED.make Parity.Odd Parity.Even Parity.Top))
     = true
  /\ ED.is_propagated_exceptions_bottom
       (ED.ignore_exceptions (ED.make Parity.Odd Parity.Even Parity.Top))
     = true.
Proof.
  split; [exact parity_set_to_bottom_is_bottom |].
  pose proof (@transfer_functions_frame Parity.t Parity.domain
                (ED.make Parity.Odd Parity.Even Parity.Top)) as Hframe.
  apply Hframe. exact parity_set_to_bottom_is_bottom.
Defined.

Lemma merge_round_trip_witness :
  ED.is_propagated_exceptions_bottom
    (ED.make Parity.Odd Parity.Even Parity.Bottom) = true
  /\ ED._caught_exceptions
       (ED.merge_propagated_in_caught_exceptions
          (ED.merge_caught_in_propagated_exceptions
             (ED.make Parity.Odd Parity.Even Parity.Bottom)))
     = Parity.Even
  /\ ED.is_propagated_exceptions_bottom
       (ED.merge_propagated_in_caught_exceptions
          (ED.merge_caught_in_propagated_exceptions
             (ED.make Parity.Odd Parity.Even Parity.Bottom)))
     = true.
Proof.
  split; [reflexivity |].
  exact (@merge_round_trip Parity.t Parity.domain
           (ED.make Parity.Odd Parity.Even Parity.Bottom)
           parity_set_to_bottom_is_bottom
           parity_join_with_bottom_receiver
           eq_refl).
Defined.

Lemma top_no_exceptions_strictly_below_top_witness :
  ED.is_top (ED.top_no_exceptions : ED.t Parity.t) = false
  /\ ED.leq (ED.top_no_exceptions : ED.t Parity.t) ED.top = true
  /\ ED.equals (ED.top_no_exceptions : ED.t Parity.t) ED.top = false.
Proof.
  destruct (@top_no_exceptions_strictly_below_top Parity.t Parity.domain)
    as [_ [Htop [Hleq Hequals]]].
  split; [exact (Htop parity_bottom_is_not_top) |].
  split; [exact (Hleq parity_top_is_greatest) |].
  exact (Hequals parity_bottom_not_equals_top).
Defined.

Lemma default_constructor_is_top_witness :
  (UD.top : Parity.t) <> UD.bottom
  /\ (ED.default : ED.t Parity.t) <> ED.top_no_exceptions.
Proof.
  split; [exact parity_top_not_bottom |].
  exact (proj2 (proj2 (@default_constructor_is_top Parity.t Parity.domain))
           parity_top_not_bottom).
Defined.

(** * Further properties of the class *)

(** ** The order and the equality test *)

Section OrderLaws.

Context {V : Type} {U : UnderlyingDomain.t V}.

Implicit Types x y z : ED.t V.

(** X1: [leq] is reflexive when the order of the underlying domain is. *)
Theorem leq_reflexive_lifts :
  Laws.leq_reflexive U -> forall x, ED.leq x x = true.
Proof.
  intros Hrefl x. apply leq_true_iff.
  repeat split; apply Hrefl.
Qed.

(** X2: [leq] is transitive when the order of the underlying domain is. *)
Theorem leq_transitive_lifts :
  Laws.leq_transitive U ->
  forall x y z,
    ED.leq x y = true -> ED.leq y z = true -> ED.leq x z = true.
Proof.
  intros Htrans x y z Hxy Hyz.
  apply leq_true_iff in Hxy. destruct Hxy as [Hn [Hc Hp]].
  apply leq_true_iff in Hyz. destruct Hyz as [Hn' [Hc' Hp']].
  apply leq_true_iff. repeat split.
  - exact (Htrans _ _ _ Hn Hn').
  - exact (Htrans _ _ _ Hc Hc').
  - exact (Htrans _ _ _ Hp Hp').
Qed.

(** X3: two values that are [leq] each other are [equals], when this
    holds in the underlying domain. *)
Theorem leq_antisymmetric_lifts :
  Laws.leq_antisymmetric U ->
  forall x y,
    ED.leq x y = true -> ED.leq y x = true -> ED.equals x y = true.
Proof.
  intros Hanti x y Hxy Hyx.
  apply leq_true_iff in Hxy. destruct Hxy as [Hn [Hc Hp]].
  apply leq_true_iff in Hyx. destruct Hyx as [Hn' [Hc' Hp']].
  apply equals_true_iff. repeat split; now apply Hanti.
Qed.

(** X4: [equals] is an equivalence when the equality test of the
    underlying domain is. *)
Theorem equals_equivalence :
  Laws.equals_reflexive U ->
  Laws.equals_symmetric U ->
  Laws.equals_transitive U ->
  (forall x, ED.equals x x = true)
  /\ (forall x y, ED.equals x y = true -> ED.equals y x = true)
  /\ (forall x y z,
        ED.equals x y = true -> ED.equals y z = true ->
        ED.equals x z = true).
Proof.
  intros Hrefl Hsym Htrans. split; [| split].
  - intros x. apply equals_true_iff. repeat split; apply Hrefl.
  - intros x y Hxy.
    apply equals_true_iff in Hxy. destruct Hxy as [Hn [Hc Hp]].
    apply equals_true_iff. repeat split; now apply Hsym.
  - intros x y z Hxy Hyz.
    apply equals_true_iff in Hxy. destruct Hxy as [Hn [Hc Hp]].
    apply equals_true_iff in Hyz. destruct Hyz as [Hn' [Hc' Hp']].
    apply equals_true_iff. repeat split; eapply Htrans; eassumption.
Qed.

(** X5: [bottom()] answers true to [is_bottom] and is below every value,
    when the bottom of the underlying domain is. *)
Theorem bottom_is_bottom_and_least :
  Laws.bottom_is_bottom U ->
  Laws.bottom_is_least U ->
  ED.is_bottom (ED.bottom : ED.t V) = true
  /\ forall x, ED.leq ED.bottom x = true.
Proof.
  intros Hbot Hleast. split.
  - unfold ED.is_bottom. cbn. now rewrite Hbot.
  - intros x. apply leq_true_iff. repeat split; apply Hleast.
Qed.

(** X6: [top()] answers true to [is_top] and is above every value, when
    the top of the underlying domain is. *)
Theorem top_is_top_and_greatest :
  Laws.top_is_top U ->
  Contract.top_is_greatest U ->
  ED.is_top (ED.top : ED.t V) = true
  /\ forall x, ED.leq x ED.top = true.
Proof.
  intros Htop Hgreatest. split.
  - unfold ED.is_top. cbn. now rewrite Htop.
  - intros x. apply leq_true_iff. repeat split; apply Hgreatest.
Qed.

(** X7: whatever the receiver, it answers true to [is_bottom] after
    [set_to_bottom] and to [is_top] after [set_to_top], when the setters
    of the underlying domain do. *)
Theorem set_to_bottom_set_to_top_effect :
  Contract.set_to_bottom_is_bottom U ->
  Laws.set_to_top_is_top U ->
  forall x,
    ED.is_bottom (ED.set_to_bottom x) = true
    /\ ED.is_top (ED.set_to_top x) = true.
Proof.
  intros Hbot Htop [n c p].
  unfold ED.is_bottom, ED.is_top. cbn.
  now rewrite !Hbot, !Htop.
Qed.

(** X8: no value answers true to both [is_bottom] and [is_top], when
    none does in the underlying domain. *)
Theorem is_bottom_excludes_is_top :
  Laws.bottom_excludes_top U ->
  forall x, ED.is_bottom x = true -> ED.is_top x = false.
Proof.
  intros Hexcl x Hx.
  apply andb3_true_iff in Hx. destruct Hx as [Hn _].
  apply is_top_false_iff. left. now apply Hexcl.
Qed.

End OrderLaws.

(** ** Join, widening and meet *)

Section BoundLaws.

Context {V : Type} {U : UnderlyingDomain.t V}.

Implicit Types x y z : ED.t V.

(** An operation applied slot by slot gives an upper bound, a least one,
    a lower bound, a greatest one, or is monotone, when it does so on the
    underlying domain. *)

Lemma componentwise_upper_bound (op : V -> V -> V) :
  Laws.upper_bound U op ->
  forall x y,
    ED.leq x (componentwise op x y) = true
    /\ ED.leq y (componentwise op x y) = true.
Proof.
  intros Hub x y. split; apply leq_true_iff; repeat split; apply Hub.
Qed.

Lemma componentwise_least (op : V -> V -> V) :
  Laws.least U op ->
  forall x y z,
    ED.leq x z = true -> ED.leq y z = true ->
    ED.leq (componentwise op x y) z = true.
Proof.
  intros Hleast x y z Hx Hy.
  apply leq_true_iff in Hx. destruct Hx as [Hxn [Hxc Hxp]].
  apply leq_true_iff in Hy. destruct Hy as [Hyn [Hyc Hyp]].
  apply leq_true_iff. repeat split; now apply Hleast.
Qed.

Lemma componentwise_lower_bound (op : V -> V -> V) :
  Laws.lower_bound U op ->
  forall x y,
    ED.leq (componentwise op x y) x = true
    /\ ED.leq (componentwise op x y) y = true.
Proof.
  intros Hlb x y. split; apply leq_true_iff; repeat split; apply Hlb.
Qed.

Lemma componentwise_greatest (op : V -> V -> V) :
  Laws.greatest U op ->
  forall x y z,
    ED.leq z x = true -> ED.leq z y = true ->
    ED.leq z (componentwise op x y) = true.
Proof.
  intros Hgreatest x y z Hx Hy.
  apply leq_true_iff in Hx. destruct Hx as [Hxn [Hxc Hxp]].
  apply leq_true_iff in Hy. destruct Hy as [Hyn [Hyc Hyp]].
  apply leq_true_iff. repeat split; now apply Hgreatest.
Qed.

Lemma componentwise_monotone (op : V -> V -> V) :
  Laws.monotone U op ->
  forall x x' y y',
    ED.leq x x' = true -> ED.leq y y' = true ->
    ED.leq (componentwise op x y) (componentwise op x' y') = true.
Proof.
  intros Hmono x x' y y' Hx Hy.
  apply leq_true_iff in Hx. destruct Hx as [Hxn [Hxc Hxp]].
  apply leq_true_iff in Hy. destruct Hy as [Hyn [Hyc Hyp]].
  apply leq_true_iff. repeat split; now apply Hmono.
Qed.

Lemma join_with_componentwise x y :
  ED.join_with x y = componentwise UD.join_with x y.
Proof. apply member_updates_componentwise. Qed.

Lemma meet_with_componentwise x y :
  ED.meet_with x y = componentwise UD.meet_with x y.
Proof. apply member_updates_componentwise. Qed.

(** X9: the receiver after [join_with] is above the receiver before it
    and above the argument, when this holds in the underlying domain. *)
Theorem join_with_upper_bound :
  Laws.upper_bound U UD.join_with ->
  forall x y,
    ED.leq x (ED.join_with x y) = true
    /\ ED.leq y (ED.join_with x y) = true.
Proof.
  intros Hub x y. rewrite join_with_componentwise.
  now apply componentwise_upper_bound.
Qed.

(** X10: the same for [join_loop_with], [join_iter_with] and
    [widen_with], each under the law for the method of the same name of
    the underlying domain. *)
Theorem join_variants_and_widen_upper_bound :
  Laws.upper_bound U UD.join_loop_with ->
  Laws.upper_bound U UD.join_iter_with ->
  Laws.upper_bound U UD.widen_with ->
  forall x y,
    (ED.leq x (ED.join_loop_with x y) = true
     /\ ED.leq y (ED.join_loop_with x y) = true)
    /\ (ED.leq x (ED.join_iter_with x y) = true
        /\ ED.leq y (ED.join_iter_with x y) = true)
    /\ (ED.leq x (ED.widen_with x y) = true
        /\ ED.leq y (ED.widen_with x y) = true).
Proof.
  intros Hloop Hiter Hwiden x y.
  unfold ED.join_loop_with, ED.join_iter_with, ED.widen_with.
  rewrite !member_updates_componentwise.
  auto using componentwise_upper_bound.
Qed.

(** X11: the receiver after [join_with] is below every value that is
    above the receiver before it and above the argument, when this holds
    in the underlying domain. *)
Theorem join_with_least :
  Laws.least U UD.join_with ->
  forall x y z,
    ED.leq x z = true -> ED.leq y z = true ->
    ED.leq (ED.join_with x y) z = true.
Proof.
  intros Hleast x y z. rewrite join_with_componentwise.
  now apply componentwise_least.
Qed.

(** X12: [join_with] is monotone in the receiver and in the argument,
    when the join of the underlying domain is. *)
Theorem join_with_monotone :
  Laws.monotone U UD.join_with ->
  forall x x' y y',
    ED.leq x x' = true -> ED.leq y y' = true ->
    ED.leq (ED.join_with x y) (ED.join_with x' y') = true.
Proof.
  intros Hmono x x' y y'. rewrite !join_with_componentwise.
  now apply componentwise_monotone.
Qed.

(** X13: the receiver after [meet_with] is below the receiver before it
    and below the argument, and above every value that is below both,
    when this holds in the underlying domain. *)
Theorem meet_with_greatest_lower_bound :
  Laws.lower_bound U UD.meet_with ->
  Laws.greatest U UD.meet_with ->
  forall x y,
    ED.leq (ED.meet_with x y) x = true
    /\ ED.leq (ED.meet_with x y) y = true
    /\ forall z,
         ED.leq z x = true -> ED.leq z y = true ->
         ED.leq z (ED.meet_with x y) = true.
Proof.
  intros Hlb Hgreatest x y. rewrite meet_with_componentwise.
  destruct (componentwise_lower_bound Hlb x y) as [Hx Hy].
  repeat split; trivial.
  intros z. now apply componentwise_greatest.
Qed.

(** X14: a receiver that answers true to [is_bottom] takes the value of
    the argument by [join_with], and an argument that answers true to
    [is_bottom] leaves the receiver as it is, when join with bottom is
    the identity in the underlying domain. *)
Theorem join_with_bottom_identity :
  Contract.join_with_bottom_receiver U ->
  Laws.join_with_bottom_argument U ->
  forall x y,
    (ED.is_bottom x = true -> ED.join_with x y = y)
    /\ (ED.is_bottom y = true -> ED.join_with x y = x).
Proof.
  intros Hrecv Harg [n c p] [n' c' p'].
  rewrite join_with_componentwise. unfold componentwise. cbn.
  split; intros Hbot; apply andb3_true_iff in Hbot; cbn in Hbot;
    destruct Hbot as [Hn [Hc Hp]].
  - now rewrite (Hrecv _ _ Hn), (Hrecv _ _ Hc), (Hrecv _ _ Hp).
  - now rewrite (Harg _ _ Hn), (Harg _ _ Hc), (Harg _ _ Hp).
Qed.

(** X15: a receiver that answers true to [is_top] takes the value of the
    argument by [meet_with], when meet with top is the identity in the
    underlying domain. *)
Theorem meet_with_top_identity :
  Laws.meet_with_top_receiver U ->
  forall x y, ED.is_top x = true -> ED.meet_with x y = y.
Proof.
  intros Hrecv [n c p] [n' c' p'] Htop.
  apply andb3_true_iff in Htop. cbn in Htop.
  destruct Htop as [Hn [Hc Hp]].
  rewrite meet_with_componentwise. unfold componentwise. cbn.
  now rewrite (Hrecv _ _ Hn), (Hrecv _ _ Hc), (Hrecv _ _ Hp).
Qed.

End BoundLaws.

(** ** The transfer functions and the order *)

Section TransferLaws.

Context {V : Type} {U : UnderlyingDomain.t V}.

Implicit Types d e : ED.t V.

(** X16: what is reachable after a transfer function that empties
    slots.  After [ignore_exceptions] the value is bottom exactly when the
    normal flow was; after [enter_catch], exactly when the caught
    exceptions were; after [enter_normal], exactly when the normal flow
    and the propagated exceptions were. *)
Theorem is_bottom_after_emptying :
  Contract.set_to_bottom_is_bottom U ->
  forall d,
    ED.is_bottom (ED.ignore_exceptions d) = ED.is_normal_flow_bottom d
    /\ ED.is_bottom (ED.enter_catch d) = ED.is_caught_exceptions_bottom d
    /\ ED.is_bottom (ED.enter_normal d)
       = ED.is_normal_flow_bottom d
         && ED.is_propagated_exceptions_bottom d.
Proof.
  intros Hbot [n c p].
  unfold ED.is_bottom, ED.is_normal_flow_bottom,
    ED.is_caught_exceptions_bottom, ED.is_propagated_exceptions_bottom.
  cbn. rewrite !Hbot.
  now rewrite !andb_true_r.
Qed.

(** X17: a handler entered right after a throw starts, as its normal
    flow, from the join of what was caught before the throw with the
    normal flow at the throw; its caught and propagated slots are
    bottom. *)
Theorem enter_catch_after_throw_exception :
  Contract.set_to_bottom_is_bottom U ->
  forall d,
    ED.normal (ED.enter_catch (ED.throw_exception d))
    = UD.join_with (ED.caught_exceptions d) (ED.normal d)
    /\ ED.is_caught_exceptions_bottom
         (ED.enter_catch (ED.throw_exception d)) = true
    /\ ED.is_propagated_exceptions_bottom
         (ED.enter_catch (ED.throw_exception d)) = true.
Proof.
  intros Hbot d.
  rewrite enter_catch_members, throw_exception_members.
  unfold ED.is_caught_exceptions_bottom, ED.is_propagated_exceptions_bottom.
  cbn. repeat split; apply Hbot.
Qed.

(** X18: throwing twice is throwing once, and so is resuming after a
    throw: once the normal flow is bottom, a second throw joins a bottom
    value into the caught slot. *)
Theorem throw_exception_idempotent :
  Contract.set_to_bottom_is_bottom U ->
  Laws.set_to_bottom_idempotent U ->
  Laws.join_with_bottom_argument U ->
  forall d,
    ED.throw_exception (ED.throw_exception d) = ED.throw_exception d
    /\ ED.resume_exception (ED.throw_exception d) = ED.throw_exception d.
Proof.
  intros Hbot Hidem Harg d.
  rewrite resume_exception_members, !throw_exception_members. cbn.
  rewrite Hidem, (Harg _ _ (Hbot _)).
  split; reflexivity.
Qed.

(** X19: a transfer function makes nothing reachable from an unreachable
    state: on a value that answers true to [is_bottom], the result of
    each of the seven answers true to [is_bottom]. *)
Theorem transfer_functions_preserve_bottom :
  Contract.set_to_bottom_is_bottom U ->
  Contract.join_with_bottom_receiver U ->
  forall d,
    ED.is_bottom d = true ->
    ED.is_bottom (ED.merge_propagated_in_caught_exceptions d) = true
    /\ ED.is_bottom (ED.merge_caught_in_propagated_exceptions d) = true
    /\ ED.is_bottom (ED.enter_normal d) = true
    /\ ED.is_bottom (ED.enter_catch d) = true
    /\ ED.is_bottom (ED.ignore_exceptions d) = true
    /\ ED.is_bottom (ED.throw_exception d) = true
    /\ ED.is_bottom (ED.resume_exception d) = true.
Proof.
  intros Hbot Hjoin [n c p] Hd.
  apply andb3_true_iff in Hd. cbn in Hd. destruct Hd as [Hn [Hc Hp]].
  unfold ED.is_bottom. cbn.
  rewrite !Hbot, !(Hjoin _ _ Hc), (Hjoin _ _ Hp), Hn, Hc, Hp.
  repeat split.
Qed.

(** X20: a throw, a resume and the two merges lose no state: the slot
    that receives the join is above both slots that were joined, when
    the join of the underlying domain is an upper bound. *)
Theorem joining_transfer_functions_keep_states :
  Laws.upper_bound U UD.join_with ->
  forall d,
    (UD.leq (ED.normal d)
            (ED.caught_exceptions (ED.throw_exception d)) = true
     /\ UD.leq (ED.caught_exceptions d)
               (ED.caught_exceptions (ED.throw_exception d)) = true)
    /\ (UD.leq (ED.normal d)
               (ED.caught_exceptions (ED.resume_exception d)) = true
        /\ UD.leq (ED.caught_exceptions d)
                  (ED.caught_exceptions (ED.resume_exception d)) = true)
    /\ (UD.leq (ED.caught_exceptions d)
               (ED.caught_exceptions
                  (ED.merge_propagated_in_caught_exceptions d)) = true
        /\ UD.leq (ED.propagated_exceptions_const d)
                  (ED.caught_exceptions
                     (ED.merge_propagated_in_caught_exceptions d)) = true)
    /\ (UD.leq (ED.caught_exceptions d)
               (ED.propagated_exceptions_const
                  (ED.merge_caught_in_propagated_exceptions d)) = true
        /\ UD.leq (ED.propagated_exceptions_const d)
                  (ED.propagated_exceptions_const
                     (ED.merge_caught_in_propagated_exceptions d)) = true).
Proof.
  intros Hub [n c p].
  unfold ED.normal, ED.caught_exceptions, ED.propagated_exceptions_const.
  cbn.
  destruct (Hub c n) as [Hcn_c Hcn_n].
  destruct (Hub c p) as [Hcp_c Hcp_p].
  destruct (Hub p c) as [Hpc_p Hpc_c].
  repeat split; assumption.
Qed.

(** X21: the seven transfer functions are monotone, when the join of the
    underlying domain is monotone and its [set_to_bottom] gives a least
    value. *)
Theorem transfer_functions_monotone :
  Laws.monotone U UD.join_with ->
  Laws.set_to_bottom_is_least U ->
  forall d e,
    ED.leq d e = true ->
    ED.leq (ED.merge_propagated_in_caught_exceptions d)
           (ED.merge_propagated_in_caught_exceptions e) = true
    /\ ED.leq (ED.merge_caught_in_propagated_exceptions d)
              (ED.merge_caught_in_propagated_exceptions e) = true
    /\ ED.leq (ED.enter_normal d) (ED.enter_normal e) = true
    /\ ED.leq (ED.enter_catch d) (ED.enter_catch e) = true
    /\ ED.leq (ED.ignore_exceptions d) (ED.ignore_exceptions e) = true
    /\ ED.leq (ED.throw_exception d) (ED.throw_exception e) = true
    /\ ED.leq (ED.resume_exception d) (ED.resume_exception e) = true.
Proof.
  intros Hmono Hleast [n c p] [n' c' p'] Hde.
  apply leq_true_iff in Hde. cbn in Hde. destruct Hde as [Hn [Hc Hp]].
  repeat split; apply leq_true_iff; cbn; repeat split;
    solve [assumption | apply Hleast | now apply Hmono].
Qed.

(** X22: a slot setter changes its own slot only, and the predicate of
    that slot holds afterwards when the setter of the underlying domain
    does what its name says. *)
Theorem slot_setters_effect :
  forall d,
    (ED.caught_exceptions (ED.set_normal_flow_to_bottom d)
     = ED.caught_exceptions d
     /\ ED.propagated_exceptions_const (ED.set_normal_flow_to_bottom d)
        = ED.propagated_exceptions_const d
     /\ ED.caught_exceptions (ED.set_normal_flow_to_top d)
        = ED.caught_exceptions d
     /\ ED.propagated_exceptions_const (ED.set_normal_flow_to_top d)
        = ED.propagated_exceptions_const d)
    /\ (ED.normal (ED.set_caught_exceptions_to_bottom d) = ED.normal d
        /\ ED.propagated_exceptions_const
             (ED.set_caught_exceptions_to_bottom d)
           = ED.propagated_exceptions_const d
        /\ ED.normal (ED.set_caught_exceptions_to_top d) = ED.normal d
        /\ ED.propagated_exceptions_const
             (ED.set_caught_exceptions_to_top d)
           = ED.propagated_exceptions_const d)
    /\ (ED.normal (ED.set_propagated_exceptions_to_bottom d) = ED.normal d
        /\ ED.caught_exceptions (ED.set_propagated_exceptions_to_bottom d)
           = ED.caught_exceptions d
        /\ ED.normal (ED.set_propagated_exceptions_to_top d) = ED.normal d
        /\ ED.caught_exceptions (ED.set_propagated_exceptions_to_top d)
           = ED.caught_exceptions d)
    /\ (Contract.set_to_bottom_is_bottom U ->
        ED.is_normal_flow_bottom (ED.set_normal_flow_to_bottom d) = true
        /\ ED.is_caught_exceptions_bottom
             (ED.set_caught_exceptions_to_bottom d) = true
        /\ ED.is_propagated_exceptions_bottom
             (ED.set_propagated_exceptions_to_bottom d) = true)
    /\ (Laws.set_to_top_is_top U ->
        ED.is_normal_flow_top (ED.set_normal_flow_to_top d) = true
        /\ ED.is_caught_exceptions_top
             (ED.set_caught_exceptions_to_top d) = true
        /\ ED.is_propagated_exceptions_top
             (ED.set_propagated_exceptions_to_top d) = true).
Proof.
  intros [n c p].
  split; [repeat split |]. split; [repeat split |].
  split; [repeat split |].
  split; intros Hset; repeat split; apply Hset.
Qed.

End TransferLaws.

(** ** [name] and [dump] *)

Lemma append_associative (a b c : string) :
  ((a ++ b) ++ c = a ++ (b ++ c))%string.
Proof.
  induction a as [| ch a IH]; cbn; [reflexivity | now rewrite IH].
Qed.

Lemma append_cancel_prefix (s a b : string) :
  (s ++ a = s ++ b)%string -> a = b.
Proof.
  induction s as [| ch s IH]; cbn; intros Heq; [exact Heq |].
  injection Heq as Heq. now apply IH.
Qed.

(** X23: the name of the class tells the underlying domain: two
    exception domains have the same name only if their underlying
    domains have the same name.  Over an exception domain, the name is
    the prefix twice, then the name of the innermost domain. *)
Theorem name_tells_underlying_name :
  forall (V W : Type) (U : UD.t V) (U' : UD.t W),
    @ED.name V U = @ED.name W U' ->
    (@UD.name V U = @UD.name W U'
     /\ @ED.name (ED.t V) (as_underlying_domain U)
        = ("exception domain of exception domain of " ++ @UD.name V U)
            %string).
Proof.
  intros V W U U' Hname. split.
  - unfold ED.name in Hname.
    exact (append_cancel_prefix _ _ _ Hname).
  - reflexivity.
Qed.

(** X24: written to a stream, a value appears after the text already
    there as [(normal=N, caught_exceptions=C, propagated_exceptions=P)],
    with [N], [C] and [P] the renderings of the three slots, when the
    [dump] of the underlying domain appends a rendering of its value. *)
Theorem dump_format :
  forall (V : Type) (D : Dump.Underlying.t V) (render : V -> string),
    Dump.appends D render ->
    forall (d : ED.t V) (o : string),
      Dump.dump d o
      = (o ++ "(normal=" ++ render (ED.normal d)
           ++ ", caught_exceptions=" ++ render (ED.caught_exceptions d)
           ++ ", propagated_exceptions="
           ++ render (ED.propagated_exceptions_const d) ++ ")")%string.
Proof.
  intros V D render Happ [n c p] o.
  unfold Dump.dump, Dump.put, ED.normal, ED.caught_exceptions,
    ED.propagated_exceptions_const. cbn [ED._normal ED._caught_exceptions
    ED._propagated_exceptions].
  rewrite !Happ. now rewrite !append_associative.
Qed.

(** ** An exception domain as underlying domain *)

Section Nesting.

Context {V : Type} {U : UnderlyingDomain.t V}.

Lemma join_with_of_bottom_receiver :
  Contract.join_with_bottom_receiver U ->
  forall x y : ED.t V, ED.is_bottom x = true -> ED.join_with x y = y.
Proof.
  intros Hrecv [n c p] [n' c' p'] Hbot.
  apply andb3_true_iff in Hbot. cbn in Hbot.
  destruct Hbot as [Hn [Hc Hp]].
  unfold ED.join_with. rewrite member_updates_componentwise.
  unfold componentwise. cbn.
  now rewrite (Hrecv _ _ Hn), (Hrecv _ _ Hc), (Hrecv _ _ Hp).
Qed.

(** X25: the class meets the contract that it expects of its
    underlying domain: over an underlying domain that meets it, the
    methods of the class, taken as an underlying domain, meet it too.  An
    exception domain can so be the underlying domain of another. *)
Theorem contract_closed_under_nesting :
  Contract.set_to_bottom_is_bottom U ->
  Contract.join_with_bottom_receiver U ->
  Contract.top_is_greatest U ->
  Contract.bottom_is_not_top U ->
  Contract.bottom_not_equals_top U ->
  Contract.set_to_bottom_is_bottom (as_underlying_domain U)
  /\ Contract.join_with_bottom_receiver (as_underlying_domain U)
  /\ Contract.top_is_greatest (as_underlying_domain U)
  /\ Contract.bottom_is_not_top (as_underlying_domain U)
  /\ Contract.bottom_not_equals_top (as_underlying_domain U).
Proof.
  intros Hbot Hrecv Hgreatest Hnot_top Hnot_equals.
  split; [| split; [| split; [| split]]].
  - intros [n c p]. cbn. unfold ED.is_bottom. cbn. now rewrite !Hbot.
  - intros x y. cbn. now apply join_with_of_bottom_receiver.
  - intros x. cbn. apply leq_true_iff. repeat split; apply Hgreatest.
  - red. cbn. apply is_top_false_iff. left. exact Hnot_top.
  - red. cbn. unfold ED.equals. cbn.
    red in Hnot_equals. now rewrite Hnot_equals.
Qed.

End Nesting.

(** ** The further properties on the parity lattice *)

(** The parity lattice satisfies the lattice laws: each is checked on
    all the elements. *)

Ltac parity_cases :=
  red; intros;
  repeat match goal with v : Parity.t |- _ => destruct v end;
  cbn in *; repeat split;
  solve [reflexivity | discriminate | assumption].

Lemma parity_leq_reflexive : Laws.leq_reflexive Parity.domain.
Proof. parity_cases. Qed.

Lemma parity_leq_transitive : Laws.leq_transitive Parity.domain.
Proof. parity_cases. Qed.

Lemma parity_leq_antisymmetric : Laws.leq_antisymmetric Parity.domain.
Proof. parity_cases. Qed.

Lemma parity_equals_reflexive : Laws.equals_reflexive Parity.domain.
Proof. parity_cases. Qed.

Lemma parity_equals_symmetric : Laws.equals_symmetric Parity.domain.
Proof. parity_cases. Qed.

Lemma parity_equals_transitive : Laws.equals_transitive Parity.domain.
Proof. parity_cases. Qed.

Lemma parity_bottom_is_bottom : Laws.bottom_is_bottom Parity.domain.
Proof. parity_cases. Qed.

Lemma parity_top_is_top : Laws.top_is_top Parity.domain.
Proof. parity_cases. Qed.

Lemma parity_bottom_is_least : Laws.bottom_is_least Parity.domain.
Proof. parity_cases. Qed.

Lemma parity_set_to_top_is_top : Laws.set_to_top_is_top Parity.domain.
Proof. parity_cases. Qed.

Lemma parity_join_upper_bound :
  Laws.upper_bound Parity.domain Parity.join.
Proof. parity_cases. Qed.

Lemma parity_join_least : Laws.least Parity.domain Parity.join.
Proof. parity_cases. Qed.

Lemma parity_join_monotone : Laws.monotone Parity.domain Parity.join.
Proof. parity_cases. Qed.

Lemma parity_meet_lower_bound :
  Laws.lower_bound Parity.domain Parity.meet.
Proof. parity_cases. Qed.

Lemma parity_meet_greatest : Laws.greatest Parity.domain Parity.meet.
Proof. parity_cases. Qed.

Lemma parity_join_with_bottom_argument :
  Laws.join_with_bottom_argument Parity.domain.
Proof. parity_cases. Qed.

Lemma parity_meet_with_top_receiver :
  Laws.meet_with_top_receiver Parity.domain.
Proof. parity_cases. Qed.

Lemma parity_set_to_bottom_idempotent :
  Laws.set_to_bottom_idempotent Parity.domain.
Proof. parity_cases. Qed.

Lemma parity_set_to_bottom_is_least :
  Laws.set_to_bottom_is_least Parity.domain.
Proof. parity_cases. Qed.

Lemma parity_bottom_excludes_top :
  Laws.bottom_excludes_top Parity.domain.
Proof. parity_cases. Qed.

Lemma parity_dump_appends : Dump.appends parity_dump parity_render.
Proof. intros v o. reflexivity. Qed.

Lemma leq_reflexive_lifts_witness :
  ED.leq (ED.make Parity.Odd Parity.Even Parity.Top)
         (ED.make Parity.Odd Parity.Even Parity.Top) = true.
Proof.
  exact (@leq_reflexive_lifts Parity.t Parity.domain parity_leq_reflexive
           (ED.make Parity.Odd Parity.Even Parity.Top)).
Defined.

Lemma leq_transitive_lifts_witness :
  ED.leq (ED.make Parity.Bottom Parity.Even Parity.Odd)
         (ED.make Parity.Even Parity.Even Parity.Top) = true
  /\ ED.leq (ED.make Parity.Even Parity.Even Parity.Top)
            (ED.make Parity.Top Parity.Top Parity.Top) = true
  /\ ED.leq (ED.make Parity.Bottom Parity.Even Parity.Odd)
            (ED.make Parity.Top Parity.Top Parity.Top) = true.
Proof.
  split; [reflexivity |]. split; [reflexivity |].
  exact (@leq_transitive_lifts Parity.t Parity.domain parity_leq_transitive
           (ED.make Parity.Bottom Parity.Even Parity.Odd)
           (ED.make Parity.Even Parity.Even Parity.Top)
           (ED.make Parity.Top Parity.Top Parity.Top)
           eq_refl eq_refl).
Defined.

Lemma leq_antisymmetric_lifts_witness :
  ED.equals (ED.make Parity.Odd Parity.Even Parity.Top)
            (ED.make Parity.Odd Parity.Even Parity.Top) = true.
Proof.
  exact (@leq_antisymmetric_lifts Parity.t Parity.domain
           parity_leq_antisymmetric
           (ED.make Parity.Odd Parity.Even Parity.Top)
           (ED.make Parity.Odd Parity.Even Parity.Top)
           eq_refl eq_refl).
Defined.

Lemma equals_equivalence_witness :
  ED.equals (ED.make Parity.Odd Parity.Even Parity.Top)
            (ED.make Parity.Odd Parity.Even Parity.Top) = true.
Proof.
  exact (proj1 (@equals_equivalence Parity.t Parity.domain
                  parity_equals_reflexive parity_equals_symmetric
                  parity_equals_transitive)
           (ED.make Parity.Odd Parity.Even Parity.Top)).
Defined.

Lemma bottom_is_bottom_and_least_witness :
  ED.is_bottom (ED.bottom : ED.t Parity.t) = true
  /\ ED.leq ED.bottom (ED.make Parity.Odd Parity.Even Parity.Bottom) = true.
Proof.
  destruct (@bottom_is_bottom_and_least Parity.t Parity.domain
              parity_bottom_is_bottom parity_bottom_is_least)
    as [Hbot Hleast].
  split; [exact Hbot | apply Hleast].
Defined.

Lemma top_is_top_and_greatest_witness :
  ED.is_top (ED.top : ED.t Parity.t) = true
  /\ ED.leq (ED.make Parity.Odd Parity.Even Parity.Bottom) ED.top = true.
Proof.
  destruct (@top_is_top_and_greatest Parity.t Parity.domain
              parity_top_is_top parity_top_is_greatest)
    as [Htop Hgreatest].
  split; [exact Htop | apply Hgreatest].
Defined.

Lemma set_to_bottom_set_to_top_effect_witness :
  ED.is_bottom
    (ED.set_to_bottom (ED.make Parity.Odd Parity.Even Parity.Top)) = true
  /\ ED.is_top
       (ED.set_to_top (ED.make Parity.Odd Parity.Even Parity.Top)) = true.
Proof.
  exact (@set_to_bottom_set_to_top_effect Parity.t Parity.domain
           parity_set_to_bottom_is_bottom parity_set_to_top_is_top
           (ED.make Parity.Odd Parity.Even Parity.Top)).
Defined.

Lemma is_bottom_excludes_is_top_witness :
  ED.is_bottom (ED.bottom : ED.t Parity.t) = true
  /\ ED.is_top (ED.bottom : ED.t Parity.t) = false.
Proof.
  split; [reflexivity |].
  exact (@is_bottom_excludes_is_top Parity.t Parity.domain
           parity_bottom_excludes_top ED.bottom eq_refl).
Defined.

Lemma join_with_upper_bound_witness :
  ED.leq (ED.make Parity.Odd Parity.Even Parity.Bottom)
         (ED.join_with (ED.make Parity.Odd Parity.Even Parity.Bottom)
                       (ED.make Parity.Even Parity.Even Parity.Odd)) = true
  /\ ED.leq (ED.make Parity.Even Parity.Even Parity.Odd)
            (ED.join_with (ED.make Parity.Odd Parity.Even Parity.Bottom)
                          (ED.make Parity.Even Parity.Even Parity.Odd))
     = true.
Proof.
  exact (@join_with_upper_bound Parity.t Parity.domain
           parity_join_upper_bound
           (ED.make Parity.Odd Parity.Even Parity.Bottom)
           (ED.make Parity.Even Parity.Even Parity.Odd)).
Defined.

Lemma join_variants_and_widen_upper_bound_witness :
  ED.leq (ED.make Parity.Odd Parity.Even Parity.Bottom)
         (ED.widen_with (ED.make Parity.Odd Parity.Even Parity.Bottom)
                        (ED.make Parity.Even Parity.Even Parity.Odd)) = true
  /\ ED.leq (ED.make Parity.Even Parity.Even Parity.Odd)
            (ED.widen_with (ED.make Parity.Odd Parity.Even Parity.Bottom)
                           (ED.make Parity.Even Parity.Even Parity.Odd))
     = true.
Proof.
  exact (proj2 (proj2
           (@join_variants_and_widen_upper_bound Parity.t Parity.domain
              parity_join_upper_bound parity_join_upper_bound
              parity_join_upper_bound
              (ED.make Parity.Odd Parity.Even Parity.Bottom)
              (ED.make Parity.Even Parity.Even Parity.Odd)))).
Defined.

Lemma join_with_least_witness :
  ED.leq (ED.join_with (ED.make Parity.Bottom Parity.Even Parity.Bottom)
                       (ED.make Parity.Even Parity.Even Parity.Odd))
         (ED.make Parity.Even Parity.Top Parity.Odd) = true.
Proof.
  exact (@join_with_least Parity.t Parity.domain parity_join_least
           (ED.make Parity.Bottom Parity.Even Parity.Bottom)
           (ED.make Parity.Even Parity.Even Parity.Odd)
           (ED.make Parity.Even Parity.Top Parity.Odd)
           eq_refl eq_refl).
Defined.

Lemma join_with_monotone_witness :
  ED.leq (ED.join_with (ED.make Parity.Bottom Parity.Even Parity.Bottom)
                       (ED.make Parity.Even Parity.Bottom Parity.Odd))
         (ED.join_with (ED.make Parity.Even Parity.Even Parity.Odd)
                       (ED.make Parity.Even Parity.Odd Parity.Top)) = true.
Proof.
  exact (@join_with_monotone Parity.t Parity.domain parity_join_monotone
           (ED.make Parity.Bottom Parity.Even Parity.Bottom)
           (ED.make Parity.Even Parity.Even Parity.Odd)
           (ED.make Parity.Even Parity.Bottom Parity.Odd)
           (ED.make Parity.Even Parity.Odd Parity.Top)
           eq_refl eq_refl).
Defined.

Lemma meet_with_greatest_lower_bound_witness :
  ED.leq (ED.meet_with (ED.make Parity.Top Parity.Even Parity.Odd)
                       (ED.make Parity.Even Parity.Even Parity.Even))
         (ED.make Parity.Top Parity.Even Parity.Odd) = true
  /\ ED.leq (ED.meet_with (ED.make Parity.Top Parity.Even Parity.Odd)
                          (ED.make Parity.Even Parity.Even Parity.Even))
            (ED.make Parity.Even Parity.Even Parity.Even) = true.
Proof.
  destruct (@meet_with_greatest_lower_bound Parity.t Parity.domain
              parity_meet_lower_bound parity_meet_greatest
              (ED.make Parity.Top Parity.Even Parity.Odd)
              (ED.make Parity.Even Parity.Even Parity.Even))
    as [Hleft [Hright _]].
  split; assumption.
Defined.

Lemma join_with_bottom_identity_witness :
  ED.join_with ED.bottom (ED.make Parity.Odd Parity.Even Parity.Top)
  = ED.make Parity.Odd Parity.Even Parity.Top
  /\ ED.join_with (ED.make Parity.Odd Parity.Even Parity.Top) ED.bottom
     = ED.make Parity.Odd Parity.Even Parity.Top.
Proof.
  split.
  - exact (proj1 (@join_with_bottom_identity Parity.t Parity.domain
                    parity_join_with_bottom_receiver
                    parity_join_with_bottom_argument
                    ED.bottom (ED.make Parity.Odd Parity.Even Parity.Top))
             eq_refl).
  - exact (proj2 (@join_with_bottom_identity Parity.t Parity.domain
                    parity_join_with_bottom_receiver
                    parity_join_with_bottom_argument
                    (ED.make Parity.Odd Parity.Even Parity.Top) ED.bottom)
             eq_refl).
Defined.

Lemma meet_with_top_identity_witness :
  ED.meet_with ED.top (ED.make Parity.Odd Parity.Even Parity.Bottom)
  = ED.make Parity.Odd Parity.Even Parity.Bottom.
Proof.
  exact (@meet_with_top_identity Parity.t Parity.domain
           parity_meet_with_top_receiver
           ED.top (ED.make Parity.Odd Parity.Even Parity.Bottom) eq_refl).
Defined.

Lemma is_bottom_after_emptying_witness :
  ED.is_bottom
    (ED.ignore_exceptions (ED.make Parity.Bottom Parity.Even Parity.Odd))
  = true
  /\ ED.is_bottom
       (ED.enter_catch (ED.make Parity.Bottom Parity.Even Parity.Odd))
     = false
  /\ ED.is_bottom
       (ED.enter_normal (ED.make Parity.Bottom Parity.Even Parity.Odd))
     = false.
Proof.
  exact (@is_bottom_after_emptying Parity.t Parity.domain
           parity_set_to_bottom_is_bottom
           (ED.make Parity.Bottom Parity.Even Parity.Odd)).
Defined.

Lemma enter_catch_after_throw_exception_witness :
  ED.normal
    (ED.enter_catch
       (ED.throw_exception (ED.make Parity.Odd Parity.Even Parity.Top)))
  = Parity.Top
  /\ ED.is_caught_exceptions_bottom
       (ED.enter_catch
          (ED.throw_exception (ED.make Parity.Odd Parity.Even Parity.Top)))
     = true
  /\ ED.is_propagated_exceptions_bottom
       (ED.enter_catch
          (ED.throw_exception (ED.make Parity.Odd Parity.Even Parity.Top)))
     = true.
Proof.
  exact (@enter_catch_after_throw_exception Parity.t Parity.domain
           parity_set_to_bottom_is_bottom
           (ED.make Parity.Odd Parity.Even Parity.Top)).
Defined.

Lemma throw_exception_idempotent_witness :
  ED.throw_exception
    (ED.throw_exception (ED.make Parity.Odd Parity.Even Parity.Top))
  = ED.make Parity.Bottom Parity.Top Parity.Top
  /\ ED.resume_exception
       (ED.throw_exception (ED.make Parity.Odd Parity.Even Parity.Top))
     = ED.make Parity.Bottom Parity.Top Parity.Top.
Proof.
  exact (@throw_exception_idempotent Parity.t Parity.domain
           parity_set_to_bottom_is_bottom
           parity_set_to_bottom_idempotent
           parity_join_with_bottom_argument
           (ED.make Parity.Odd Parity.Even Parity.Top)).
Defined.

Lemma transfer_functions_preserve_bottom_witness :
  ED.is_bottom (ED.throw_exception (ED.bottom : ED.t Parity.t)) = true
  /\ ED.is_bottom
       (ED.merge_caught_in_propagated_exceptions
          (ED.bottom : ED.t Parity.t)) = true.
Proof.
  pose proof (@transfer_functions_preserve_bottom Parity.t Parity.domain
                parity_set_to_bottom_is_bottom
                parity_join_with_bottom_receiver
                ED.bottom eq_refl) as Hpreserved.
  split; apply Hpreserved.
Defined.

Lemma joining_transfer_functions_keep_states_witness :
  UD.leq Parity.Odd
         (ED.caught_exceptions
            (ED.throw_exception
               (ED.make Parity.Odd Parity.Even Parity.Bottom))) = true
  /\ UD.leq Parity.Even
            (ED.caught_exceptions
               (ED.throw_exception
                  (ED.make Parity.Odd Parity.Even Parity.Bottom))) = true.
Proof.
  exact (proj1 (@joining_transfer_functions_keep_states
                  Parity.t Parity.domain parity_join_upper_bound
                  (ED.make Parity.Odd Parity.Even Parity.Bottom))).
Defined.

Lemma transfer_functions_monotone_witness :
  ED.leq (ED.make Parity.Bottom Parity.Even Parity.Odd)
         (ED.make Parity.Even Parity.Even Parity.Top) = true
  /\ ED.leq
       (ED.throw_exception (ED.make Parity.Bottom Parity.Even Parity.Odd))
       (ED.throw_exception (ED.make Parity.Even Parity.Even Parity.Top))
     = true
  /\ ED.leq
       (ED.enter_catch (ED.make Parity.Bottom Parity.Even Parity.Odd))
       (ED.enter_catch (ED.make Parity.Even Parity.Even Parity.Top))
     = true.
Proof.
  split; [reflexivity |].
  pose proof (@transfer_functions_monotone Parity.t Parity.domain
                parity_join_monotone parity_set_to_bottom_is_least
                (ED.make Parity.Bottom Parity.Even Parity.Odd)
                (ED.make Parity.Even Parity.Even Parity.Top)
                eq_refl) as Hmono.
  split; apply Hmono.
Defined.

Lemma slot_setters_effect_witness :
  ED.is_normal_flow_bottom
    (ED.set_normal_flow_to_bottom
       (ED.make Parity.Odd Parity.Even Parity.Top)) = true
  /\ ED.is_caught_exceptions_top
       (ED.set_caught_exceptions_to_top
          (ED.make Parity.Odd Parity.Even Parity.Top)) = true.
Proof.
  pose proof (@slot_setters_effect Parity.t Parity.domain
                (ED.make Parity.Odd Parity.Even Parity.Top)) as Heffect.
  destruct Heffect as [_ [_ [_ [Hbottom Htop]]]].
  split.
  - apply (Hbottom parity_set_to_bottom_is_bottom).
  - apply (Htop parity_set_to_top_is_top).
Defined.

Lemma name_tells_underlying_name_witness :
  @UD.name Parity.t Parity.domain = @UD.name Parity.t Parity.domain
  /\ @ED.name (ED.t Parity.t) (as_underlying_domain Parity.domain)
     = "exception domain of exception domain of parity"%string.
Proof.
  exact (@name_tells_underlying_name Parity.t Parity.t
           Parity.domain Parity.domain eq_refl).
Defined.

Lemma dump_format_witness :
  Dump.dump (ED.make Parity.Even Parity.Bottom Parity.Odd) "state: "
  = "state: (normal=Even, caught_exceptions=Bottom, propagated_exceptions=Odd)"
      %string.
Proof.
  exact (@dump_format Parity.t parity_dump parity_render
           parity_dump_appends
           (ED.make Parity.Even Parity.Bottom Parity.Odd) "state: ").
Defined.

Lemma contract_closed_under_nesting_witness :
  Contract.set_to_bottom_is_bottom (as_underlying_domain Parity.domain)
  /\ Contract.join_with_bottom_receiver (as_underlying_domain Parity.domain)
  /\ Contract.top_is_greatest (as_underlying_domain Parity.domain)
  /\ Contract.bottom_is_not_top (as_underlying_domain Parity.domain)
  /\ Contract.bottom_not_equals_top (as_underlying_domain Parity.domain).
Proof.
  exact (@contract_closed_under_nesting Parity.t Parity.domain
           parity_set_to_bottom_is_bottom
           parity_join_with_bottom_receiver
           parity_top_is_greatest
           parity_bottom_is_not_top
           parity_bottom_not_equals_top).
Defined.

(** ** Transfer functions in sequence *)

Section TransferSequences.

Context {V : Type} {U : UnderlyingDomain.t V}.

Implicit Types d : ED.t V.

(** X26: whatever was propagated, moving the caught exceptions to the
    propagated slot and then back leaves in the caught slot the join of
    the propagated slot with the caught slot, keeps the normal slot and
    leaves the propagated slot bottom. *)
Theorem merge_round_trip_collects :
  Contract.set_to_bottom_is_bottom U ->
  Contract.join_with_bottom_receiver U ->
  forall d,
    ED.caught_exceptions
      (ED.merge_propagated_in_caught_exceptions
         (ED.merge_caught_in_propagated_exceptions d))
    = UD.join_with (ED.propagated_exceptions_const d)
                   (ED.caught_exceptions d)
    /\ ED.normal
         (ED.merge_propagated_in_caught_exceptions
            (ED.merge_caught_in_propagated_exceptions d))
       = ED.normal d
    /\ ED.is_propagated_exceptions_bottom
         (ED.merge_propagated_in_caught_exceptions
            (ED.merge_caught_in_propagated_exceptions d))
       = true.
Proof.
  intros Hbot Hrecv d.
  rewrite merge_propagated_in_caught_exceptions_members.
  rewrite merge_caught_in_propagated_exceptions_members.
  unfold ED.caught_exceptions, ED.propagated_exceptions_const, ED.normal,
    ED.is_propagated_exceptions_bottom.
  cbn. split; [| split].
  - apply Hrecv, Hbot.
  - reflexivity.
  - apply Hbot.
Qed.

(** X27: [enter_normal], [ignore_exceptions] and the two merges do
    nothing more when run a second time. *)
Theorem emptying_and_merging_idempotent :
  Contract.set_to_bottom_is_bottom U ->
  Laws.set_to_bottom_idempotent U ->
  Laws.join_with_bottom_argument U ->
  forall d,
    ED.enter_normal (ED.enter_normal d) = ED.enter_normal d
    /\ ED.ignore_exceptions (ED.ignore_exceptions d)
       = ED.ignore_exceptions d
    /\ ED.merge_propagated_in_caught_exceptions
         (ED.merge_propagated_in_caught_exceptions d)
       = ED.merge_propagated_in_caught_exceptions d
    /\ ED.merge_caught_in_propagated_exceptions
         (ED.merge_caught_in_propagated_exceptions d)
       = ED.merge_caught_in_propagated_exceptions d.
Proof.
  intros Hbot Hidem Harg d.
  rewrite !enter_normal_members, !ignore_exceptions_members,
    !merge_propagated_in_caught_exceptions_members,
    !merge_caught_in_propagated_exceptions_members.
  cbn. rewrite !Hidem, !(Harg _ _ (Hbot _)).
  repeat split.
Qed.

(** X28: [enter_catch] run twice in a row leaves an unreachable state:
    the second run takes as normal flow the caught slot that the first
    run emptied. *)
Theorem enter_catch_twice_is_bottom :
  Contract.set_to_bottom_is_bottom U ->
  forall d, ED.is_bottom (ED.enter_catch (ED.enter_catch d)) = true.
Proof.
  intros Hbot d.
  rewrite !enter_catch_members. unfold ED.is_bottom. cbn.
  now rewrite !Hbot.
Qed.

End TransferSequences.

Lemma merge_round_trip_collects_witness :
  ED.caught_exceptions
    (ED.merge_propagated_in_caught_exceptions
       (ED.merge_caught_in_propagated_exceptions
          (ED.make Parity.Top Parity.Even Parity.Odd)))
  = Parity.Top
  /\ ED.normal
       (ED.merge_propagated_in_caught_exceptions
          (ED.merge_caught_in_propagated_exceptions
             (ED.make Parity.Top Parity.Even Parity.Odd)))
     = Parity.Top
  /\ ED.is_propagated_exceptions_bottom
       (ED.merge_propagated_in_caught_exceptions
          (ED.merge_caught_in_propagated_exceptions
             (ED.make Parity.Top Parity.Even Parity.Odd)))
     = true.
Proof.
  exact (@merge_round_trip_collects Parity.t Parity.domain
           parity_set_to_bottom_is_bottom
           parity_join_with_bottom_receiver
           (ED.make Parity.Top Parity.Even Parity.Odd)).
Defined.

Lemma emptying_and_merging_idempotent_witness :
  ED.merge_propagated_in_caught_exceptions
    (ED.merge_propagated_in_caught_exceptions
       (ED.make Parity.Top Parity.Even Parity.Odd))
  = ED.make Parity.Top Parity.Top Parity.Bottom
  /\ ED.merge_caught_in_propagated_exceptions
       (ED.merge_caught_in_propagated_exceptions
          (ED.make Parity.Top Parity.Even Parity.Odd))
     = ED.make Parity.Top Parity.Bottom Parity.Top.
Proof.
  pose proof (@emptying_and_merging_idempotent Parity.t Parity.domain
                parity_set_to_bottom_is_bottom
                parity_set_to_bottom_idempotent
                parity_join_with_bottom_argument
                (ED.make Parity.Top Parity.Even Parity.Odd)) as Hidem.
  split; apply Hidem.
Defined.

Lemma enter_catch_twice_is_bottom_witness :
  ED.is_bottom
    (ED.enter_catch
       (ED.enter_catch (ED.make Parity.Odd Parity.Even Parity.Top)))
  = true.
Proof.
  exact (@enter_catch_twice_is_bottom Parity.t Parity.domain
           parity_set_to_bottom_is_bottom
           (ED.make Parity.Odd Parity.Even Parity.Top)).
Defined.
